(** * FinNet settlement engine: anomaly labelling and multilateral netting

    A shallow embedding of the two engine classes of [finnet_engine.py]
    ([RiskEngine.detect_anomalies] and [NettingEngine.run_netting]) together
    with the properties of the settlement report.

    Modelling conventions.
    - A pandas [DataFrame] is a list of rows plus the optional
      [Anomaly_Score] column that [detect_anomalies] writes.
    - DataFrames are Python objects: they live in a heap and are passed by
      reference, so that in-place column assignment is visible to every
      alias of the frame.
    - In the first model money amounts are exact rationals ([Q], compared
      with [==]); it serves the properties that do not depend on rounding.
      The one place where the source can leave the finite numbers, the
      division of line 103, keeps numpy's behaviour: dividing by zero
      yields NaN or an infinity, it does not raise.
    - The properties that rounding decides (sums that should agree, bounds
      between sums) are stated over binary64, in module [F64], where every
      operation rounds as the float64 of the source does.
    - Python exceptions are the [Raise] results of a state-and-error monad. *)

From Stdlib Require Import QArith Qabs Qpower Lqa Floats.
From stdpp Require Import gmap strings list sorting vector pretty.

Local Open Scope Z_scope.

(** ** Data model *)

(** One row of the ledger, with the columns built by
    [MarketSimulator.generate_trades]. *)
Record Trade := {
  Trade_ID : string;
  Buyer : string;
  Seller : string;
  Symbol : string;
  Quantity : Z;
  Price : Q;
  Timestamp : Z;
  Total_Value : Q
}.

(** A ledger frame; [Anomaly_Score] is [None] until the column is assigned. *)
Record DataFrame := {
  rows : list Trade;
  Anomaly_Score : option (list Z)
}.

(** One row of [net_df]. *)
Record NetRow := {
  Entity : string;
  To_Pay : Q;
  To_Receive : Q;
  Net_Position : Q;
  Status : string
}.

(** A numpy float64 result: a finite number or one of the special values. *)
Inductive np_float :=
  | Finite (q : Q)
  | PosInf
  | NegInf
  | NaN.

(** The tuple returned by [run_netting]. *)
Record SettlementReport := {
  net_df : list NetRow;
  savings : np_float;
  gross_volume : Q;
  net_volume : Q
}.

(** ** Exceptions, heap and the monad of engine calls *)

(** The exceptions that can come out of the two engines.  The last one
    stands for a reference to no object, which Python cannot produce; it
    makes the heap lookups total. *)
Inductive exn :=
  | KeyError (column : string)
  | ValueError (msg : string)
  | InvalidParameterError (param : string)
  | DanglingReference.

Inductive result (A : Type) :=
  | Ok (a : A)
  | Raise (e : exn).
Arguments Ok {A} a.
Arguments Raise {A} e.

Definition loc := nat.

(** The process state the two engines can see: the module-level
    [risk_threshold] (line 44) and the DataFrame objects. *)
Record World := {
  risk_threshold : Q;
  heap : gmap loc DataFrame
}.

Definition M (A : Type) : Type := World → result A * World.

Definition ret {A} (a : A) : M A := λ w, (Ok a, w).

Definition raise {A} (e : exn) : M A := λ w, (Raise e, w).

Definition bind {A B} (m : M A) (k : A → M B) : M B :=
  λ w, match m w with
       | (Ok a, w') => k a w'
       | (Raise e, w') => (Raise e, w')
       end.

#[global] Instance M_ret : MRet M := @ret.
#[global] Instance M_bind : MBind M := λ A B k m, bind m k.

(** Reading the frame behind a reference. *)
Definition deref (r : loc) : M DataFrame :=
  λ w, match heap w !! r with
       | Some df => (Ok df, w)
       | None => (Raise DanglingReference, w)
       end.

(** Reading the global slider value. *)
Definition read_risk_threshold : M Q := λ w, (Ok (risk_threshold w), w).

(** [df['Anomaly_Score'] = values], in place: pandas refuses a column whose
    length differs from the index. *)
Definition setitem_Anomaly_Score (r : loc) (values : list Z) : M unit :=
  λ w, match heap w !! r with
       | Some df =>
           if decide (length values = length (rows df)) then
             (Ok tt,
              {| risk_threshold := risk_threshold w;
                 heap := <[r := {| rows := rows df;
                                   Anomaly_Score := Some values |}]> (heap w) |})
           else (Raise (ValueError "Length of values does not match length of index"), w)
       | None => (Raise DanglingReference, w)
       end.

(** [df['Anomaly_Score']]: a missing column is a [KeyError]. *)
Definition getitem_Anomaly_Score (df : DataFrame) : M (list Z) :=
  match Anomaly_Score df with
  | Some sc => ret sc
  | None => raise (KeyError "Anomaly_Score")
  end.

(** ** Table operations used by the netting engine *)

Definition Qsum (l : list Q) : Q := foldr Qplus 0%Q l.

(** [df[mask]] with [mask = (scores == 1)]. *)
Definition boolean_mask (sc : list Z) (l : list Trade) : list Trade :=
  fst <$> filter (λ p : Trade * Z, p.2 = 1) (zip l sc).

(** The distinct keys of a column in ascending order, as [groupby] and the
    outer [merge] list them. *)
Definition sorted_unique (ks : list string) : list string :=
  merge_sort String.le (remove_dups ks).

(** The sum of [Total_Value] over the rows of one group. *)
Definition group_sum (key : Trade → string) (l : list Trade) (k : string) : Q :=
  Qsum (Total_Value <$> filter (λ t, key t = k) l).

(** [l.groupby(key)['Total_Value'].sum().reset_index()]. *)
Definition groupby_sum (key : Trade → string) (l : list Trade) : list (string * Q) :=
  (λ k, (k, group_sum key l k)) <$> sorted_unique (key <$> l).

(** The value of key [k] in a two-column table, if it has a row for [k]. *)
Fixpoint assoc (k : string) (t : list (string * Q)) : option Q :=
  match t with
  | [] => None
  | (k', v) :: t' => if decide (k' = k) then Some v else assoc k t'
  end.

(** [pd.merge(left, right, on='Entity', how='outer')] for tables whose
    [Entity] values are distinct (both sides come out of a [groupby]).  A
    side with no row for an entity contributes a missing value. *)
Definition merge_outer (left right : list (string * Q))
  : list (string * option Q * option Q) :=
  (λ k, (k, assoc k left, assoc k right)) <$>
    sorted_unique (left.*1 ++ right.*1).

(** [.fillna(0)] on one cell. *)
Definition fillna0 (c : option Q) : Q := default 0%Q c.

Definition status_of (x : Q) : string :=
  if Qlt_le_dec x 0 then "PAY TO DTCC" else "RECEIVE FROM DTCC".

(** Lines 94 to 98: a merged row, filled, with its two derived columns. *)
Definition net_row (m : string * option Q * option Q) : NetRow :=
  let pay := fillna0 m.1.2 in
  let rcv := fillna0 m.2 in
  {| Entity := m.1.1;
     To_Pay := pay;
     To_Receive := rcv;
     Net_Position := (rcv - pay)%Q;
     Status := status_of (rcv - pay)%Q |}.

(** Division of numpy floats: a zero divisor gives NaN or a signed
    infinity (with a warning), never an exception. *)
Definition np_div (a b : Q) : np_float :=
  if Qeq_bool b 0 then
    match (a ?= 0)%Q with
    | Eq => NaN
    | Lt => NegInf
    | Gt => PosInf
    end
  else Finite (a / b)%Q.

Definition np_mul (x : np_float) (c : Q) : np_float :=
  match x with
  | Finite q => Finite (q * c)%Q
  | PosInf => if Qlt_le_dec 0 c then PosInf else if Qeq_bool c 0 then NaN else NegInf
  | NegInf => if Qlt_le_dec 0 c then NegInf else if Qeq_bool c 0 then NaN else PosInf
  | NaN => NaN
  end.

(** ** NettingEngine.run_netting *)

Definition pay_obligations (valid_trades : list Trade) : list (string * Q) :=
  groupby_sum Buyer valid_trades.

Definition receive_obligations (valid_trades : list Trade) : list (string * Q) :=
  groupby_sum Seller valid_trades.

Definition netting_table (valid_trades : list Trade) : list NetRow :=
  net_row <$> merge_outer (pay_obligations valid_trades)
                          (receive_obligations valid_trades).

Definition netting_report (valid_trades : list Trade) : SettlementReport :=
  let table := netting_table valid_trades in
  let gross := Qsum (Total_Value <$> valid_trades) in
  let net := (Qsum (Qabs <$> (Net_Position <$> table)) / 2)%Q in
  {| net_df := table;
     savings := np_mul (np_div (gross - net) gross) 100;
     gross_volume := gross;
     net_volume := net |}.

Definition run_netting (df : loc) : M SettlementReport :=
  frame ← deref df;
  scores ← getitem_Anomaly_Score frame;
  ret (netting_report (boolean_mask scores (rows frame))).

(** ** RiskEngine.detect_anomalies *)

(** The feature matrix [df[['Quantity', 'Total_Value']]]. *)
Definition features (df : DataFrame) : list (Z * Q) :=
  (λ t, (Quantity t, Total_Value t)) <$> rows df.

(** The outlier model is a library object; the engine is written against
    its [fit_predict], which gets the contamination, the random seed and
    the feature matrix and either raises or returns one label per row. *)
Definition outlier_model : Type := Q → Z → list (Z * Q) → result (list Z).

(** A library call: its outcome is returned or re-raised, the world is
    not touched. *)
Definition call_model {A} (outcome : result A) : M A := λ w, (outcome, w).

Definition detect_anomalies (fit_predict : outlier_model) (df : loc) : M loc :=
  contamination ← read_risk_threshold;
  frame ← deref df;
  labels ← call_model (fit_predict contamination 42 (features frame));
  _ ← setitem_Anomaly_Score df labels;
  ret df.

(** ** Vocabulary of the statements *)

(** The NORMAL subset of a frame: the rows that [run_netting] keeps. *)
Definition normal_trades (df : DataFrame) : list Trade :=
  match Anomaly_Score df with
  | Some sc => boolean_mask sc (rows df)
  | None => []
  end.

(** The [Entity] column of the merged table. *)
Definition entities (valid_trades : list Trade) : list string :=
  sorted_unique ((pay_obligations valid_trades).*1 ++
                 (receive_obligations valid_trades).*1).

(** The row of an entity in [net_df], and its cells read with 0 for an
    entity that has no row. *)
Definition position_of (e : string) (table : list NetRow) : option NetRow :=
  head (filter (λ p, Entity p = e) table).

Definition to_pay_of (e : string) (table : list NetRow) : Q :=
  from_option To_Pay 0%Q (position_of e table).

Definition to_receive_of (e : string) (table : list NetRow) : Q :=
  from_option To_Receive 0%Q (position_of e table).

Definition net_position_of (e : string) (table : list NetRow) : Q :=
  from_option Net_Position 0%Q (position_of e table).

(** The parameter check of the library's isolation forest: a float
    contamination has to lie in the half-open interval (0, 0.5]. *)
Definition contamination_accepted (c : Q) : bool :=
  if Qlt_le_dec 0 c then (if Qlt_le_dec (1 # 2) c then false else true)
  else false.

(** An outlier model that checks its contamination the way the library
    does, rejecting the others before it looks at the data. *)
Definition validates_contamination (fit_predict : outlier_model) : Prop :=
  ∀ c seed X, contamination_accepted c = false →
    fit_predict c seed X = Raise (InvalidParameterError "contamination").

(** A model with the library's parameter check that finds no outlier. *)
Definition all_normal_model : outlier_model :=
  λ c _ X,
    if contamination_accepted c then Ok ((λ _, 1%Z) <$> X)
    else Raise (InvalidParameterError "contamination").

(** ** Sample ledgers *)

Definition trade (id buyer seller : string) (quantity : Z) (price : Q) : Trade :=
  {| Trade_ID := id; Buyer := buyer; Seller := seller; Symbol := "AAPL";
     Quantity := quantity; Price := price; Timestamp := 0;
     Total_Value := (inject_Z quantity * price)%Q |}.

Definition world_of (threshold : Q) (df : DataFrame) : World :=
  {| risk_threshold := threshold; heap := {[ 0%nat := df ]} |}.

Definition self_trade : Trade := trade "TRX-10003" "BlackRock" "BlackRock" 7 1.

(** JPMorgan buys 100 from Citi, Citi buys 60 from JPMorgan, BlackRock
    trades 7 with itself; a fourth, very large trade is flagged. *)
Definition ledger_mixed : DataFrame :=
  {| rows := [trade "TRX-10001" "JPMorgan" "Citi" 10 10;
              trade "TRX-10002" "Citi" "JPMorgan" 6 10;
              self_trade;
              trade "TRX-10004" "Citi" "Goldman Sachs" 900 1500];
     Anomaly_Score := Some [1; 1; 1; -1] |}.

(** The row of BlackRock in the report of [ledger_mixed]. *)
Definition blackrock_position : NetRow :=
  {| Entity := "BlackRock"; To_Pay := 7; To_Receive := 7;
     Net_Position := 0; Status := "RECEIVE FROM DTCC" |}.

(** A round trip: A buys 100 from B and B buys 100 from A. *)
Definition ledger_round_trip : DataFrame :=
  {| rows := [trade "TRX-50001" "A" "B" 1 100;
              trade "TRX-50002" "B" "A" 1 100];
     Anomaly_Score := Some [1; 1] |}.

(** A single trade: A buys 50 from B. *)
Definition ledger_single_trade : DataFrame :=
  {| rows := [trade "TRX-60001" "A" "B" 1 50];
     Anomaly_Score := Some [1] |}.

(** Every trade flagged. *)
Definition ledger_all_anomalous : DataFrame :=
  {| rows := [trade "TRX-20001" "JPMorgan" "Citi" 10 10;
              trade "TRX-20002" "Citi" "JPMorgan" 6 10];
     Anomaly_Score := Some [-1; -1] |}.


(** A ledger of one trade that has not been scanned yet. *)
Definition ledger_unscanned : DataFrame :=
  {| rows := [trade "TRX-40001" "JPMorgan" "Citi" 10 10];
     Anomaly_Score := None |}.

(** ** The alert of the risk tab *)

(** Line 136: [analyzed_df[analyzed_df['Anomaly_Score'] == -1]]. *)
Definition anomaly_mask (sc : list Z) (l : list Trade) : list Trade :=
  fst <$> filter (λ p : Trade * Z, p.2 = (-1)%Z) (zip l sc).

(** A model whose labels are 1 or -1, as the comment of line 75 expects. *)
Definition binary_labels (fit_predict : outlier_model) : Prop :=
  ∀ c seed X labels, fit_predict c seed X = Ok labels →
    Forall (λ z, z = 1%Z ∨ z = (-1)%Z) labels.

(** ** MarketSimulator.generate_trades *)

Definition counterparties : vec string 5 :=
  [# "JPMorgan"; "Goldman Sachs"; "Morgan Stanley"; "Citi"; "BlackRock"].

Definition symbols : vec string 5 := [# "AAPL"; "GOOGL"; "TSLA"; "MSFT"; "AMZN"].

(** What the random generator hands out for one row: the number of the
    trade identifier, the positions chosen in the two lists of names, the
    quantity and the price (already rounded to cents). *)
Record Draw := {
  draw_id : Z;
  draw_buyer : fin 5;
  draw_seller : fin 5;
  draw_symbol : fin 5;
  draw_quantity : Z;
  draw_price : Q
}.

(** The ranges of lines 51, 55 and 56. *)
Definition draw_in_range (d : Draw) : Prop :=
  (10000 ≤ draw_id d < 99999)%Z ∧ (10 ≤ draw_quantity d < 1000)%Z ∧
  (100 <= draw_price d)%Q ∧ (draw_price d <= 1500)%Q.

(** Lines 50 to 61: row [i] of the frame, with its derived total. *)
Definition simulated_row (rng : nat → Draw) (i : nat) : Trade :=
  {| Trade_ID := "TRX-" +:+ pretty (draw_id (rng i));
     Buyer := counterparties !!! draw_buyer (rng i);
     Seller := counterparties !!! draw_seller (rng i);
     Symbol := symbols !!! draw_symbol (rng i);
     Quantity := draw_quantity (rng i);
     Price := draw_price (rng i);
     Timestamp := Z.of_nat i;
     Total_Value := (inject_Z (draw_quantity (rng i)) * draw_price (rng i))%Q |}.

Definition scale_Total_Value (c : Q) (t : Trade) : Trade :=
  {| Trade_ID := Trade_ID t; Buyer := Buyer t; Seller := Seller t;
     Symbol := Symbol t; Quantity := Quantity t; Price := Price t;
     Timestamp := Timestamp t; Total_Value := (Total_Value t * c)%Q |}.

(** [df.loc[first:last, 'Total_Value'] = df.loc[first:last, 'Total_Value'] * c]
    on a frame with the default index: both ends of a label slice are
    included, and labels past the end of the frame select nothing. *)
Definition loc_scale_Total_Value (first last : nat) (c : Q) (l : list Trade)
  : list Trade :=
  imap (λ i t, if decide (first ≤ i ≤ last)%nat then scale_Total_Value c t else t) l.

Definition generate_trades (rng : nat → Draw) (n : nat) : DataFrame :=
  {| rows := loc_scale_Total_Value 0 2 50 (simulated_row rng <$> seq 0 n);
     Anomaly_Score := None |}.

(** ** The dashboard script *)

(** [st.session_state], with its two keys. *)
Record SessionState := {
  session_df : option loc;
  session_analyzed_df : option loc
}.

(** What persists from one run of the script to the next. *)
Record App := {
  session : SessionState;
  world : World
}.

Definition Script (A : Type) : Type := App → result A * App.

#[global] Instance Script_ret : MRet Script := λ A a app, (Ok a, app).
#[global] Instance Script_bind : MBind Script :=
  λ A B k m app, match m app with
                 | (Ok a, app') => k a app'
                 | (Raise e, app') => (Raise e, app')
                 end.

(** An engine call made by the script. *)
Definition lift {A} (m : M A) : Script A :=
  λ app, let '(res, w) := m (world app) in
         (res, {| session := session app; world := w |}).

(** Line 44: the slider value becomes the module-level [risk_threshold]. *)
Definition read_slider (value : Q) : Script unit :=
  λ app, (Ok tt, {| session := session app;
                    world := {| risk_threshold := value;
                                heap := heap (world app) |} |}).

(** Lines 110 to 112: the ledger is generated on the first run only. *)
Definition init_df (rng : nat → Draw) : Script loc :=
  λ app, match session_df (session app) with
         | Some df => (Ok df, app)
         | None =>
             let df := fresh (dom (heap (world app))) in
             (Ok df,
              {| session := {| session_df := Some df;
                               session_analyzed_df :=
                                 session_analyzed_df (session app) |};
                 world := {| risk_threshold := risk_threshold (world app);
                             heap := <[df := generate_trades rng 1000]>
                                       (heap (world app)) |} |})
         end.

Definition set_analyzed_df (r : loc) : Script unit :=
  λ app, (Ok tt, {| session := {| session_df := session_df (session app);
                                  session_analyzed_df := Some r |};
                    world := world app |}).

Definition get_analyzed_df : Script (option loc) :=
  λ app, (Ok (session_analyzed_df (session app)), app).

(** What a run of the script shows: the two metrics of the first tab, the
    flagged trades when the scan button was clicked, and the settlement
    report when a scanned ledger is there. *)
Record Dashboard := {
  transactions_processed : nat;
  total_market_volume : Q;
  alert : option (list Trade);
  settlement : option SettlementReport
}.

(** Lines 117 to 124. *)
Definition tab1 (df : loc) : Script (nat * Q) :=
  frame ← lift (deref df);
  mret (length (rows frame),
        (Qsum (Total_Value <$> rows frame) / 1000000)%Q).

(** Lines 126 to 146. *)
Definition tab2 (fit_predict : outlier_model) (clicked : bool) (df : loc)
  : Script (option (list Trade)) :=
  if clicked then
    analyzed_df ← lift (detect_anomalies fit_predict df);
    _ ← set_analyzed_df analyzed_df;
    frame ← lift (deref analyzed_df);
    scores ← lift (getitem_Anomaly_Score frame);
    mret (Some (anomaly_mask scores (rows frame)))
  else mret None.

(** Lines 148 to 174. *)
Definition tab3 : Script (option SettlementReport) :=
  analyzed ← get_analyzed_df;
  match analyzed with
  | Some analyzed_df =>
      report ← lift (run_netting analyzed_df);
      mret (Some report)
  | None => mret None
  end.

(** One run of the script, from the slider to the third tab. *)
Definition script_run (fit_predict : outlier_model) (rng : nat → Draw)
    (slider : Q) (clicked : bool) : Script Dashboard :=
  _ ← read_slider slider;
  df ← init_df rng;
  metrics ← tab1 df;
  flagged ← tab2 fit_predict clicked df;
  report ← tab3;
  mret {| transactions_processed := metrics.1;
          total_market_volume := metrics.2;
          alert := flagged;
          settlement := report |}.

(** The session that a run leaves behind is consistent: its ledger exists,
    and a ledger kept as scanned is that same ledger and has its scores,
    one per trade. *)
Definition session_ok (app : App) : Prop :=
  (∀ df, session_df (session app) = Some df →
         is_Some (heap (world app) !! df)) ∧
  (∀ analyzed_df, session_analyzed_df (session app) = Some analyzed_df →
     session_df (session app) = Some analyzed_df ∧
     ∃ frame sc, heap (world app) !! analyzed_df = Some frame ∧
                 Anomaly_Score frame = Some sc ∧
                 length sc = length (rows frame)).

(** The state of a browser session that has not run the script yet. *)
Definition fresh_app : App :=
  {| session := {| session_df := None; session_analyzed_df := None |};
     world := {| risk_threshold := 5 # 100; heap := ∅ |} |}.

(** A generator that hands out the same draw for every row. *)
Definition constant_rng : nat → Draw :=
  λ _, {| draw_id := 12345; draw_buyer := 0%fin; draw_seller := 3%fin;
          draw_symbol := 1%fin; draw_quantity := 10; draw_price := 100 |}.

(** A session whose ledger is the unscanned ledger of one trade. *)
Definition started_app : App :=
  {| session := {| session_df := Some 0%nat; session_analyzed_df := None |};
     world := world_of (5 # 100) ledger_unscanned |}.

(** What a run on [started_app] shows when the button is clicked and the
    model flags nothing. *)
Definition first_click_dashboard : Dashboard :=
  {| transactions_processed := 1;
     total_market_volume :=
       (Qsum (Total_Value <$> rows ledger_unscanned) / 1000000)%Q;
     alert := Some [];
     settlement := Some (netting_report (rows ledger_unscanned)) |}.

(** ** More sample sessions *)

(** A model with the library's parameter check that flags the trades of
    more than 500 units. *)
Definition large_quantity_model : outlier_model :=
  λ c _ X,
    if contamination_accepted c
    then Ok ((λ x : Z * Q, if decide (500 < x.1)%Z then (-1)%Z else 1%Z) <$> X)
    else Raise (InvalidParameterError "contamination").

(** The four trades of [ledger_mixed], not scanned yet. *)
Definition ledger_mixed_unscanned : DataFrame :=
  {| rows := rows ledger_mixed; Anomaly_Score := None |}.

(** The ledger of the session, or the ledger that the next run will
    simulate for a session that has none. *)
Definition session_ledger (rng : nat → Draw) (app : App) (frame : DataFrame)
  : Prop :=
  match session_df (session app) with
  | Some df => heap (world app) !! df = Some frame
  | None => frame = generate_trades rng 1000
  end.

(** A session whose ledger, [ledger_mixed], has been scanned. *)
Definition scanned_app : App :=
  {| session := {| session_df := Some 0%nat; session_analyzed_df := Some 0%nat |};
     world := world_of (5 # 100) ledger_mixed |}.

(** ** The netting engine over binary64 *)

(** The amounts of a real ledger are float64 values and every sum of the
    engine rounds.  This module is [run_netting] again, over the kernel's
    binary64 numbers, for the properties that depend on rounding.  The two
    summation routines are library code ([Series.sum] of numpy and the
    group sum of pandas) and are parameters of the engine;
    [sequential_sum] adds from left to right starting at zero, which is
    what both routines do on a column of fewer than eight cells and on a
    group of at most two rows. *)
Module F64.

Local Open Scope float_scope.

Record Trade := {
  Trade_ID : string;
  Buyer : string;
  Seller : string;
  Symbol : string;
  Quantity : Z;
  Price : float;
  Timestamp : Z;
  Total_Value : float
}.

Record DataFrame := {
  rows : list Trade;
  Anomaly_Score : option (list Z)
}.

Record NetRow := {
  Entity : string;
  To_Pay : float;
  To_Receive : float;
  Net_Position : float;
  Status : string
}.

Record SettlementReport := {
  net_df : list NetRow;
  savings : float;
  gross_volume : float;
  net_volume : float
}.


Definition boolean_mask (sc : list Z) (l : list Trade) : list Trade :=
  fst <$> filter (λ p : Trade * Z, p.2 = 1%Z) (zip l sc).

Definition normal_trades (df : DataFrame) : list Trade :=
  match Anomaly_Score df with
  | Some sc => boolean_mask sc (rows df)
  | None => []
  end.

Fixpoint assoc (k : string) (t : list (string * float)) : option float :=
  match t with
  | [] => None
  | (k', v) :: t' => if decide (k' = k) then Some v else assoc k t'
  end.

Definition fillna0 (c : option float) : float := default 0 c.

Definition status_of (x : float) : string :=
  if x <? 0 then "PAY TO DTCC" else "RECEIVE FROM DTCC".

Definition net_row (m : string * option float * option float) : NetRow :=
  let pay := fillna0 m.1.2 in
  let rcv := fillna0 m.2 in
  {| Entity := m.1.1;
     To_Pay := pay;
     To_Receive := rcv;
     Net_Position := rcv - pay;
     Status := status_of (rcv - pay) |}.

Definition merge_outer (left right : list (string * float))
  : list (string * option float * option float) :=
  (λ k, (k, assoc k left, assoc k right)) <$>
    sorted_unique (left.*1 ++ right.*1).

Section engine.
Variable series_sum : list float → float.
Variable group_total : list float → float.

Definition group_sum (key : Trade → string) (l : list Trade) (k : string) : float :=
  group_total (Total_Value <$> filter (λ t, key t = k) l).

Definition groupby_sum (key : Trade → string) (l : list Trade)
  : list (string * float) :=
  (λ k, (k, group_sum key l k)) <$> sorted_unique (key <$> l).

Definition pay_obligations (valid_trades : list Trade) : list (string * float) :=
  groupby_sum Buyer valid_trades.

Definition receive_obligations (valid_trades : list Trade) : list (string * float) :=
  groupby_sum Seller valid_trades.

Definition netting_table (valid_trades : list Trade) : list NetRow :=
  net_row <$> merge_outer (pay_obligations valid_trades)
                          (receive_obligations valid_trades).

Definition netting_report (valid_trades : list Trade) : SettlementReport :=
  let table := netting_table valid_trades in
  let gross := series_sum (Total_Value <$> valid_trades) in
  let net := series_sum (abs <$> (Net_Position <$> table)) / 2 in
  {| net_df := table;
     savings := (gross - net) / gross * 100;
     gross_volume := gross;
     net_volume := net |}.

Definition run_netting (df : DataFrame) : result SettlementReport :=
  match Anomaly_Score df with
  | Some sc => Ok (netting_report (boolean_mask sc (rows df)))
  | None => Raise (KeyError "Anomaly_Score")
  end.
End engine.

(** The row of an entity and its cells, 0 for an entity without a row. *)
Definition position_of (e : string) (table : list NetRow) : option NetRow :=
  head (filter (λ p, Entity p = e) table).

Definition to_pay_of (e : string) (table : list NetRow) : float :=
  from_option To_Pay 0 (position_of e table).

Definition to_receive_of (e : string) (table : list NetRow) : float :=
  from_option To_Receive 0 (position_of e table).

Definition net_position_of (e : string) (table : list NetRow) : float :=
  from_option Net_Position 0 (position_of e table).

(** The entities of a ledger, as the merged table lists them. *)
Definition entities (l : list Trade) : list string :=
  sorted_unique (sorted_unique (Buyer <$> l) ++ sorted_unique (Seller <$> l)).

Definition trade (id buyer seller : string) (quantity : Z) (price total : float)
  : Trade :=
  {| Trade_ID := id; Buyer := buyer; Seller := seller; Symbol := "AAPL";
     Quantity := quantity; Price := price; Timestamp := 0%Z;
     Total_Value := total |}.

End F64.

(** ** Runs without rounding *)











(** *** Sample float ledgers *)






(** ** Sums of rationals *)

Local Open Scope Q_scope.

Section rational_sums.
Context {A : Type}.
Implicit Types (f g : A → Q) (l : list A).







End rational_sums.

(** ** Keys, groups and the merged table *)

Lemma elem_of_sorted_unique k ks : k ∈ sorted_unique ks ↔ k ∈ ks.
Proof.
  unfold sorted_unique.
  rewrite (merge_sort_Permutation String.le (remove_dups ks)).
  apply elem_of_remove_dups.
Qed.

Lemma NoDup_sorted_unique ks : NoDup (sorted_unique ks).
Proof.
  unfold sorted_unique.
  rewrite (merge_sort_Permutation String.le (remove_dups ks)).
  apply NoDup_remove_dups.
Qed.

Lemma Sorted_sorted_unique ks : Sorted String.le (sorted_unique ks).
Proof. apply (Sorted_merge_sort String.le). Qed.

Lemma sorted_unique_nil : sorted_unique [] = [].
Proof. reflexivity. Qed.

Section groups.
Variable key : Trade → string.
Implicit Types (l : list Trade) (k : string).

Lemma group_sum_cons t l k :
  group_sum key (t :: l) k =
    if decide (key t = k) then Total_Value t + group_sum key l k
    else group_sum key l k.
Proof.
  unfold group_sum. rewrite filter_cons.
  by destruct (decide (key t = k)).
Qed.

Lemma group_sum_absent l k : k ∉ key <$> l → group_sum key l k = 0.
Proof.
  intros Hk. induction l as [|t l IH]; [reflexivity|].
  rewrite group_sum_cons. rewrite fmap_cons, not_elem_of_cons in Hk.
  destruct Hk as [Hne Hk]. destruct (decide (key t = k)); [done|].
  by apply IH.
Qed.



Lemma groupby_sum_keys l : (groupby_sum key l).*1 = sorted_unique (key <$> l).
Proof.
  unfold groupby_sum. rewrite <- list_fmap_compose.
  apply list_fmap_id.
Qed.

Lemma assoc_tabulate (f : string → Q) (ks : list string) k :
  assoc k ((λ k', (k', f k')) <$> ks) = if decide (k ∈ ks) then Some (f k) else None.
Proof.
  induction ks as [|k' ks IH].
  - destruct (decide (k ∈ [])) as [Hin|]; [|done]. by apply elem_of_nil in Hin.
  - rewrite fmap_cons. cbn [assoc].
    destruct (decide (k' = k)) as [->|Hne].
    + rewrite decide_True; [done|]. by left.
    + rewrite IH. destruct (decide (k ∈ ks)) as [Hin|Hnin].
      * rewrite decide_True; [done|]. by right.
      * rewrite decide_False; [done|].
        rewrite not_elem_of_cons. split; [congruence|done].
Qed.

Lemma assoc_groupby_sum l k :
  assoc k (groupby_sum key l) =
    if decide (k ∈ key <$> l) then Some (group_sum key l k) else None.
Proof.
  unfold groupby_sum. rewrite assoc_tabulate.
  destruct (decide (k ∈ key <$> l)) as [Hin|Hnin].
  - rewrite decide_True; [done|]. by apply elem_of_sorted_unique.
  - rewrite decide_False; [done|]. by rewrite elem_of_sorted_unique.
Qed.

(** After [fillna(0)] the cell of an entity is its group total, whether
    or not the entity has a group. *)
Lemma fillna0_assoc_groupby_sum l k :
  fillna0 (assoc k (groupby_sum key l)) = group_sum key l k.
Proof.
  rewrite assoc_groupby_sum. destruct (decide (k ∈ key <$> l)); simpl; [done|].
  symmetry. by apply group_sum_absent.
Qed.
End groups.

(** ** The merged table, row by row *)

(** The row that the engine builds for entity [k]. *)
Lemma net_row_merge l k :
  net_row (k, assoc k (pay_obligations l), assoc k (receive_obligations l)) =
    {| Entity := k;
       To_Pay := group_sum Buyer l k;
       To_Receive := group_sum Seller l k;
       Net_Position := group_sum Seller l k - group_sum Buyer l k;
       Status := status_of (group_sum Seller l k - group_sum Buyer l k) |}.
Proof.
  unfold net_row, pay_obligations, receive_obligations. cbn [fst snd].
  by rewrite !fillna0_assoc_groupby_sum.
Qed.

Lemma netting_table_rows l :
  netting_table l =
    (λ k, net_row (k, assoc k (pay_obligations l), assoc k (receive_obligations l)))
      <$> entities l.
Proof.
  unfold netting_table, merge_outer, entities.
  by rewrite <- list_fmap_compose.
Qed.

Lemma netting_table_Entity l : Entity <$> netting_table l = entities l.
Proof.
  rewrite netting_table_rows, <- list_fmap_compose.
  apply list_fmap_id.
Qed.




Lemma elem_of_entities l e :
  e ∈ entities l ↔ e ∈ Buyer <$> l ∨ e ∈ Seller <$> l.
Proof.
  unfold entities, pay_obligations, receive_obligations.
  rewrite elem_of_sorted_unique, elem_of_app, !groupby_sum_keys.
  by rewrite !elem_of_sorted_unique.
Qed.

Lemma NoDup_entities l : NoDup (entities l).
Proof. apply NoDup_sorted_unique. Qed.

Lemma elem_of_netting_table l p :
  p ∈ netting_table l ↔
    ∃ k, k ∈ entities l ∧
      p = {| Entity := k;
             To_Pay := group_sum Buyer l k;
             To_Receive := group_sum Seller l k;
             Net_Position := group_sum Seller l k - group_sum Buyer l k;
             Status := status_of (group_sum Seller l k - group_sum Buyer l k) |}.
Proof.
  rewrite netting_table_rows, list_elem_of_fmap.
  split; intros (k & H1 & H2); exists k.
  - by rewrite net_row_merge in H1.
  - by rewrite net_row_merge.
Qed.

(** ** Running the engine on a labelled frame *)

Lemma run_netting_labelled w r df sc :
  heap w !! r = Some df → Anomaly_Score df = Some sc →
  run_netting r w = (Ok (netting_report (normal_trades df)), w).
Proof.
  intros Hr Hsc. unfold run_netting, normal_trades, mbind, M_bind, bind, deref.
  rewrite Hr. unfold getitem_Anomaly_Score. by rewrite Hsc.
Qed.

Lemma run_netting_unlabelled w r df :
  heap w !! r = Some df → Anomaly_Score df = None →
  run_netting r w = (Raise (KeyError "Anomaly_Score"), w).
Proof.
  intros Hr Hsc. unfold run_netting, mbind, M_bind, bind, deref.
  rewrite Hr. unfold getitem_Anomaly_Score. by rewrite Hsc.
Qed.

Lemma run_netting_world r w : (run_netting r w).2 = w.
Proof.
  unfold run_netting, mbind, M_bind, bind, deref.
  destruct (heap w !! r) as [df|]; [|done].
  unfold getitem_Anomaly_Score. by destruct (Anomaly_Score df).
Qed.

(** On a round trip both entities net to zero, both receive, and the
    whole gross volume is saved. *)
Example round_trip_report :
  ∃ rep q, (run_netting 0%nat (world_of (5 # 100) ledger_round_trip)).1 = Ok rep ∧
    (Entity <$> net_df rep) = ["A"; "B"] ∧
    Forall (λ p, Net_Position p == 0 ∧ Status p = "RECEIVE FROM DTCC") (net_df rep) ∧
    savings rep = Finite q ∧ q == 100.
Proof.
  eexists _, _. split; [reflexivity|]. split; [reflexivity|].
  split; [by repeat constructor|]. split; reflexivity.
Qed.

(** On a single trade the buyer pays, the seller receives, and nothing is
    saved. *)
Example single_trade_report :
  ∃ rep q, (run_netting 0%nat (world_of (5 # 100) ledger_single_trade)).1 = Ok rep ∧
    (λ p, (Entity p, Status p)) <$> net_df rep =
      [("A", "PAY TO DTCC"); ("B", "RECEIVE FROM DTCC")] ∧
    net_position_of "A" (net_df rep) == -50 ∧
    net_position_of "B" (net_df rep) == 50 ∧
    savings rep = Finite q ∧ q == 0.
Proof.
  eexists _, _. split; [reflexivity|]. repeat split; reflexivity.
Qed.

(** An unscanned ledger cannot be netted. *)
Example unscanned_ledger_KeyError :
  run_netting 0%nat (world_of (5 # 100) ledger_unscanned) =
    (Raise (KeyError "Anomaly_Score"), world_of (5 # 100) ledger_unscanned).
Proof. reflexivity. Qed.

(** The rows of the report come in ascending order of entity. *)
Lemma netting_table_sorted l : Sorted String.le (Entity <$> netting_table l).
Proof. rewrite netting_table_Entity. apply Sorted_sorted_unique. Qed.

(** ** Conservation *)



(** ** Status *)

Lemma status_of_pay x : status_of x = "PAY TO DTCC" ↔ x < 0.
Proof.
  unfold status_of. destruct (Qlt_le_dec x 0) as [Hlt|Hle].
  - by split.
  - split; [discriminate|]. intros Hlt. by apply Qle_not_lt in Hle.
Qed.

Lemma status_of_receive x : status_of x = "RECEIVE FROM DTCC" ↔ 0 <= x.
Proof.
  unfold status_of. destruct (Qlt_le_dec x 0) as [Hlt|Hle].
  - split; [discriminate|]. intros Hle. by apply Qle_not_lt in Hle.
  - by split.
Qed.

(** C4. Every row of the report has one of the two statuses; it is the pay
    status exactly when [Net_Position] is below zero, so a row whose
    [Net_Position] is zero has the receive status. *)
Theorem status_tie_break w w' r rep p :
  run_netting r w = (Ok rep, w') → p ∈ net_df rep →
  (Status p = "PAY TO DTCC" ↔ Net_Position p < 0) ∧
  (Status p = "RECEIVE FROM DTCC" ↔ ¬ Net_Position p < 0) ∧
  (Net_Position p == 0 → Status p = "RECEIVE FROM DTCC").
Proof.
  intros Hrun Hp.
  assert (∃ l, rep = netting_report l) as [l ->].
  { unfold run_netting, mbind, M_bind, bind, deref in Hrun.
    destruct (heap w !! r) as [df|]; [|done].
    unfold getitem_Anomaly_Score in Hrun.
    destruct (Anomaly_Score df); [|done]. eexists. by injection Hrun as <- _. }
  cbn [net_df netting_report] in Hp.
  apply elem_of_netting_table in Hp as (k & _ & ->). cbn [Status Net_Position].
  split; [apply status_of_pay|]. split.
  - rewrite status_of_receive. split; [apply Qle_not_lt|apply Qnot_lt_le].
  - intros H0. apply status_of_receive. rewrite H0. apply Qle_refl.
Qed.

Lemma status_tie_break_witness :
  (Status blackrock_position = "PAY TO DTCC" ↔
     Net_Position blackrock_position < 0) ∧
  (Status blackrock_position = "RECEIVE FROM DTCC" ↔
     ¬ Net_Position blackrock_position < 0) ∧
  (Net_Position blackrock_position == 0 →
     Status blackrock_position = "RECEIVE FROM DTCC").
Proof.
  apply (status_tie_break (world_of (5 # 100) ledger_mixed)
           (world_of (5 # 100) ledger_mixed) 0%nat
           (netting_report (normal_trades ledger_mixed)) blackrock_position).
  - reflexivity.
  - vm_compute. left.
Defined.

(** ** Net volume *)






(** ** Entities *)

(** C6. The entities of the report are exactly the buyers and the sellers
    of the NORMAL trades, each once; an entity that only buys has
    [To_Receive = 0] and one that only sells has [To_Pay = 0]. *)
Theorem report_entities w r df sc :
  heap w !! r = Some df → Anomaly_Score df = Some sc →
  ∃ rep, run_netting r w = (Ok rep, w) ∧
    NoDup (Entity <$> net_df rep) ∧
    (∀ e, e ∈ Entity <$> net_df rep ↔
          e ∈ Buyer <$> normal_trades df ∨ e ∈ Seller <$> normal_trades df) ∧
    (∀ p, p ∈ net_df rep → Entity p ∉ Seller <$> normal_trades df →
          To_Receive p = 0) ∧
    (∀ p, p ∈ net_df rep → Entity p ∉ Buyer <$> normal_trades df →
          To_Pay p = 0).
Proof.
  intros Hr Hsc. eexists. split; [by eapply run_netting_labelled|].
  cbn [net_df netting_report]. rewrite netting_table_Entity.
  split; [apply NoDup_entities|]. split; [apply elem_of_entities|].
  split; intros p Hp Hno; apply elem_of_netting_table in Hp as (k & _ & ->);
    cbn [Entity To_Receive To_Pay] in *; by apply group_sum_absent.
Qed.

Lemma report_entities_witness :
  ∃ rep, run_netting 0%nat (world_of (5 # 100) ledger_mixed)
           = (Ok rep, world_of (5 # 100) ledger_mixed) ∧
    NoDup (Entity <$> net_df rep) ∧
    (∀ e, e ∈ Entity <$> net_df rep ↔
          e ∈ Buyer <$> normal_trades ledger_mixed ∨
          e ∈ Seller <$> normal_trades ledger_mixed) ∧
    (∀ p, p ∈ net_df rep → Entity p ∉ Seller <$> normal_trades ledger_mixed →
          To_Receive p = 0) ∧
    (∀ p, p ∈ net_df rep → Entity p ∉ Buyer <$> normal_trades ledger_mixed →
          To_Pay p = 0).
Proof.
  apply (report_entities _ 0%nat ledger_mixed [1; 1; 1; -1]%Z); reflexivity.
Defined.

(** ** Determinism *)

(** C7. [run_netting] leaves the world as it found it and reads nothing
    but the frame it is given, so a second run on the same ledger returns
    the very same report (or raises the same exception), and so does a run
    in any other world that holds the same frame. *)
Theorem netting_deterministic r w :
  (run_netting r w).2 = w ∧
  (run_netting r (run_netting r w).2).1 = (run_netting r w).1 ∧
  (∀ r' w', heap w' !! r' = heap w !! r →
            (run_netting r' w').1 = (run_netting r w).1).
Proof.
  split; [apply run_netting_world|].
  split; [by rewrite run_netting_world|].
  intros r' w' Heq. unfold run_netting, mbind, M_bind, bind, deref.
  rewrite Heq. destruct (heap w !! r) as [df|]; [|done].
  unfold getitem_Anomaly_Score. by destruct (Anomaly_Score df).
Qed.

(** ** Ledgers with nothing to settle *)




(** The claim as the specification states it fails on a ledger whose
    trades are all flagged: the engine returns a report. *)
Lemma all_anomalous_returns_report :
  normal_trades ledger_all_anomalous = [] ∧
  run_netting 0%nat (world_of (5 # 100) ledger_all_anomalous) =
    (Ok {| net_df := []; savings := NaN; gross_volume := 0; net_volume := 0 / 2 |},
     world_of (5 # 100) ledger_all_anomalous).
Proof. split; reflexivity. Qed.

(** C2, amended. On a labelled ledger with no NORMAL trade [run_netting]
    raises nothing: it returns a report with no position, gross and net
    volume zero, and NaN savings. *)
Theorem no_normal_trades_report w r df sc :
  heap w !! r = Some df → Anomaly_Score df = Some sc →
  normal_trades df = [] →
  ∃ rep, run_netting r w = (Ok rep, w) ∧
    net_df rep = [] ∧ gross_volume rep == 0 ∧ net_volume rep == 0 ∧
    savings rep = NaN.
Proof.
  intros Hr Hsc Hnil. eexists. split; [by eapply run_netting_labelled|].
  rewrite Hnil. by vm_compute.
Qed.

Lemma no_normal_trades_report_witness :
  ∃ rep, run_netting 0%nat (world_of (5 # 100) ledger_all_anomalous)
           = (Ok rep, world_of (5 # 100) ledger_all_anomalous) ∧
    net_df rep = [] ∧ gross_volume rep == 0 ∧ net_volume rep == 0 ∧
    savings rep = NaN.
Proof.
  apply (no_normal_trades_report _ 0%nat ledger_all_anomalous [-1; -1]%Z);
    reflexivity.
Defined.




(** ** The anomaly scan *)

Section detector.
Variable fit_predict : outlier_model.

(** What a call of [detect_anomalies] does, case by case. *)
Lemma detect_anomalies_outcome w r df :
  heap w !! r = Some df →
  detect_anomalies fit_predict r w =
    match fit_predict (risk_threshold w) 42%Z (features df) with
    | Ok labels =>
        if decide (length labels = length (rows df)) then
          (Ok r,
           {| risk_threshold := risk_threshold w;
              heap := <[r := {| rows := rows df;
                                Anomaly_Score := Some labels |}]> (heap w) |})
        else
          (Raise (ValueError "Length of values does not match length of index"), w)
    | Raise e => (Raise e, w)
    end.
Proof.
  intros Hr.
  unfold detect_anomalies, mbind, M_bind, bind, read_risk_threshold, deref.
  rewrite Hr. unfold call_model.
  destruct (fit_predict (risk_threshold w) 42%Z (features df)) as [labels|e];
    [|done].
  unfold setitem_Anomaly_Score. rewrite Hr.
  by destruct (decide (length labels = length (rows df))).
Qed.

Lemma detect_anomalies_dangling w r :
  heap w !! r = None →
  detect_anomalies fit_predict r w = (Raise DanglingReference, w).
Proof.
  intros Hr.
  unfold detect_anomalies, mbind, M_bind, bind, read_risk_threshold, deref.
  by rewrite Hr.
Qed.
End detector.

(** The claim as the specification states it fails on an unscanned ledger
    of one trade: after the scan the ledger that was passed in has an
    [Anomaly_Score] column. *)
Lemma detect_anomalies_mutates_ledger :
  (detect_anomalies all_normal_model 0%nat
     (world_of (5 # 100) ledger_unscanned)).1 = Ok 0%nat ∧
  heap (world_of (5 # 100) ledger_unscanned) !! 0%nat = Some ledger_unscanned ∧
  heap (detect_anomalies all_normal_model 0%nat
          (world_of (5 # 100) ledger_unscanned)).2 !! 0%nat =
    Some {| rows := rows ledger_unscanned; Anomaly_Score := Some [1%Z] |} ∧
  (detect_anomalies all_normal_model 0%nat
     (world_of (5 # 100) ledger_unscanned)).2 ≠ world_of (5 # 100) ledger_unscanned.
Proof.
  split; [reflexivity|]. split; [reflexivity|].
  assert (heap (detect_anomalies all_normal_model 0%nat
                  (world_of (5 # 100) ledger_unscanned)).2 !! 0%nat =
          Some {| rows := rows ledger_unscanned; Anomaly_Score := Some [1%Z] |})
    as Hw' by reflexivity.
  split; [exact Hw'|].
  intros Heq. rewrite Heq in Hw'. discriminate Hw'.
Qed.

(** C8, amended. The outcome of [detect_anomalies] is determined by the
    feature columns of the ledger it is given, by [risk_threshold] and by
    the seed 42.  It has one effect: when the model returns one label per
    trade, the [Anomaly_Score] column of that ledger is overwritten in
    place and the same ledger is returned; its rows, the other ledgers and
    [risk_threshold] stay as they were.  When the call raises, nothing has
    changed. *)
Theorem detect_anomalies_effect fit_predict w r df :
  heap w !! r = Some df →
  ∃ res w', detect_anomalies fit_predict r w = (res, w') ∧
    risk_threshold w' = risk_threshold w ∧
    (∀ r', r' ≠ r → heap w' !! r' = heap w !! r') ∧
    (∃ df', heap w' !! r = Some df' ∧ rows df' = rows df) ∧
    match fit_predict (risk_threshold w) 42%Z (features df) with
    | Ok labels =>
        if decide (length labels = length (rows df)) then
          res = Ok r ∧
          heap w' !! r = Some {| rows := rows df; Anomaly_Score := Some labels |}
        else
          res = Raise (ValueError "Length of values does not match length of index")
          ∧ w' = w
    | Raise e => res = Raise e ∧ w' = w
    end.
Proof.
  intros Hr. rewrite (detect_anomalies_outcome fit_predict w r df Hr).
  destruct (fit_predict (risk_threshold w) 42%Z (features df)) as [labels|e].
  - destruct (decide (length labels = length (rows df))) as [Hlen|Hlen].
    + eexists _, _. split; [reflexivity|]. cbn [risk_threshold heap].
      split; [done|]. split; [intros r' Hne; by rewrite lookup_insert_ne|].
      rewrite lookup_insert_eq. split; [by eexists|done].
    + eexists _, _. split; [reflexivity|]. repeat split; eauto.
  - eexists _, _. split; [reflexivity|]. repeat split; eauto.
Qed.

Lemma detect_anomalies_effect_witness :
  ∃ res w',
    detect_anomalies all_normal_model 0%nat (world_of (5 # 100) ledger_unscanned)
      = (res, w') ∧
    risk_threshold w' = 5 # 100 ∧
    (∀ r', r' ≠ 0%nat →
           heap w' !! r' = heap (world_of (5 # 100) ledger_unscanned) !! r') ∧
    (∃ df', heap w' !! 0%nat = Some df' ∧ rows df' = rows ledger_unscanned) ∧
    res = Ok 0%nat ∧
    heap w' !! 0%nat =
      Some {| rows := rows ledger_unscanned; Anomaly_Score := Some [1%Z] |}.
Proof.
  apply (detect_anomalies_effect all_normal_model
           (world_of (5 # 100) ledger_unscanned) 0%nat ledger_unscanned).
  reflexivity.
Defined.

(** ** Contamination outside the accepted range *)

Lemma contamination_accepted_spec c :
  contamination_accepted c = true ↔ 0 < c ∧ c <= 1 # 2.
Proof.
  unfold contamination_accepted.
  destruct (Qlt_le_dec 0 c) as [H0|H0].
  - destruct (Qlt_le_dec (1 # 2) c) as [H1|H1].
    + split; [discriminate|]. intros [_ Hle]. by apply Qlt_not_le in H1.
    + by split.
  - split; [discriminate|]. intros [Hlt _]. by apply Qle_not_lt in H0.
Qed.

Lemma all_normal_model_validates : validates_contamination all_normal_model.
Proof.
  intros c seed X Hc. unfold all_normal_model. by rewrite Hc.
Qed.

(** The engine has no parameter check of its own: whenever the scan ends
    in a parameter error, the model has raised it. *)
Lemma detect_anomalies_parameter_error fit_predict w w' r df param :
  heap w !! r = Some df →
  detect_anomalies fit_predict r w = (Raise (InvalidParameterError param), w') →
  fit_predict (risk_threshold w) 42%Z (features df) =
    Raise (InvalidParameterError param).
Proof.
  intros Hr. rewrite (detect_anomalies_outcome fit_predict w r df Hr).
  destruct (fit_predict (risk_threshold w) 42%Z (features df)) as [labels|e].
  - by destruct (decide (length labels = length (rows df))).
  - by intros [= ->].
Qed.

(** The claim as the specification states it fails at the sensitivity 0.5,
    which is outside the open interval (0, 0.5) and which the model's
    parameter check lets through. *)
Lemma detect_anomalies_accepts_one_half :
  ¬ (0 < 1 # 2 ∧ 1 # 2 < 1 # 2) ∧
  (detect_anomalies all_normal_model 0%nat
     (world_of (1 # 2) ledger_unscanned)).1 = Ok 0%nat.
Proof.
  split; [|reflexivity]. intros [_ Hlt]. revert Hlt. by vm_compute.
Qed.

(** C9, amended. The engine itself checks nothing; with an outlier model
    that validates its contamination as the library does, the scan of any
    ledger fails with the model's parameter error for every sensitivity
    outside the half-open interval (0, 0.5], and leaves the ledger as it
    was. *)
Theorem detect_anomalies_rejects_contamination fit_predict w r df :
  validates_contamination fit_predict →
  heap w !! r = Some df →
  ¬ (0 < risk_threshold w ∧ risk_threshold w <= 1 # 2) →
  detect_anomalies fit_predict r w =
    (Raise (InvalidParameterError "contamination"), w).
Proof.
  intros Hval Hr Hout.
  rewrite (detect_anomalies_outcome fit_predict w r df Hr), Hval; [done|].
  destruct (contamination_accepted (risk_threshold w)) eqn:Hc; [|done].
  by apply contamination_accepted_spec in Hc.
Qed.

Lemma detect_anomalies_rejects_contamination_witness :
  detect_anomalies all_normal_model 0%nat (world_of (7 # 10) ledger_unscanned) =
    (Raise (InvalidParameterError "contamination"),
     world_of (7 # 10) ledger_unscanned).
Proof.
  apply (detect_anomalies_rejects_contamination all_normal_model
           (world_of (7 # 10) ledger_unscanned) 0%nat ledger_unscanned).
  - intros c seed X Hc. unfold all_normal_model. rewrite Hc. reflexivity.
  - reflexivity.
  - intros [_ Hle]. revert Hle. vm_compute. intros Hle. apply Hle. reflexivity.
Defined.

(** ** Scanning, rescanning and netting *)

Lemma detect_anomalies_Ok_inv fit_predict w w' r r' :
  detect_anomalies fit_predict r w = (Ok r', w') →
  r' = r ∧
  ∃ df labels, heap w !! r = Some df ∧
    fit_predict (risk_threshold w) 42%Z (features df) = Ok labels ∧
    length labels = length (rows df) ∧
    w' = {| risk_threshold := risk_threshold w;
            heap := <[r := {| rows := rows df;
                              Anomaly_Score := Some labels |}]> (heap w) |}.
Proof.
  destruct (heap w !! r) as [df|] eqn:Hr.
  - rewrite (detect_anomalies_outcome fit_predict w r df Hr).
    destruct (fit_predict (risk_threshold w) 42%Z (features df))
      as [labels|e] eqn:Hfit; [|done].
    destruct (decide (length labels = length (rows df))) as [Hlen|]; [|done].
    intros [= <- <-]. split; [done|]. by exists df, labels.
  - by rewrite (detect_anomalies_dangling fit_predict w r Hr).
Qed.

(** X9. A successful scan makes the ledger ready for netting: the ledger
    that [detect_anomalies] returns is the one it was given, and
    [run_netting] on it returns the report of the trades that the model
    labelled 1, without raising. *)
Theorem scan_then_net fit_predict w w' r r' :
  detect_anomalies fit_predict r w = (Ok r', w') →
  r' = r ∧
  ∃ df labels, heap w !! r = Some df ∧
    fit_predict (risk_threshold w) 42%Z (features df) = Ok labels ∧
    run_netting r' w' =
      (Ok (netting_report (boolean_mask labels (rows df))), w').
Proof.
  intros Hscan.
  apply detect_anomalies_Ok_inv in Hscan as (-> & df & labels & Hr & Hfit & _ & ->).
  split; [done|]. exists df, labels. split; [done|]. split; [done|].
  apply (run_netting_labelled _ r {| rows := rows df; Anomaly_Score := Some labels |} labels);
    [|done].
  cbn [heap]. apply lookup_insert_eq.
Qed.

Lemma scan_then_net_witness :
  0%nat = 0%nat ∧
  ∃ df labels,
    heap (world_of (5 # 100) ledger_unscanned) !! 0%nat = Some df ∧
    all_normal_model (risk_threshold (world_of (5 # 100) ledger_unscanned))
      42%Z (features df) = Ok labels ∧
    run_netting 0%nat
      (detect_anomalies all_normal_model 0%nat
         (world_of (5 # 100) ledger_unscanned)).2 =
      (Ok (netting_report (boolean_mask labels (rows df))),
       (detect_anomalies all_normal_model 0%nat
          (world_of (5 # 100) ledger_unscanned)).2).
Proof.
  apply (scan_then_net all_normal_model (world_of (5 # 100) ledger_unscanned)
           _ 0%nat 0%nat).
  reflexivity.
Defined.

(** X10. Scanning again changes nothing: a second scan right after a scan
    has the same outcome and leaves the same world, because the labels are
    computed from the quantity and total-value columns only and the scan
    does not touch those. *)
Theorem rescan_idempotent fit_predict r w :
  detect_anomalies fit_predict r (detect_anomalies fit_predict r w).2 =
    detect_anomalies fit_predict r w.
Proof.
  destruct (detect_anomalies fit_predict r w) as [[r'|e] w'] eqn:Hscan.
  - pose proof Hscan as Hinv.
    apply detect_anomalies_Ok_inv in Hinv as (-> & df & labels & Hr & Hfit & Hlen & ->).
    cbn [snd].
    rewrite (detect_anomalies_outcome fit_predict _ r
               {| rows := rows df; Anomaly_Score := Some labels |})
      by (cbn [heap]; apply lookup_insert_eq).
    cbn [risk_threshold heap rows]. unfold features at 1. cbn [rows].
    change ((λ t, (Quantity t, Total_Value t)) <$> rows df) with (features df).
    rewrite Hfit, decide_True by done.
    by rewrite insert_insert_eq.
  - cbn [snd]. destruct (heap w !! r) as [df|] eqn:Hr.
    + rewrite (detect_anomalies_outcome fit_predict w r df Hr) in Hscan.
      destruct (fit_predict (risk_threshold w) 42%Z (features df))
        as [labels|e'] eqn:Hfit.
      * destruct (decide (length labels = length (rows df))); [done|].
        injection Hscan as <- <-.
        rewrite (detect_anomalies_outcome fit_predict w r df Hr), Hfit.
        by rewrite decide_False.
      * injection Hscan as <- <-.
        by rewrite (detect_anomalies_outcome fit_predict w r df Hr), Hfit.
    + rewrite (detect_anomalies_dangling fit_predict w r Hr) in Hscan.
      injection Hscan as <- <-.
      by rewrite (detect_anomalies_dangling fit_predict w r Hr).
Qed.

Lemma mask_partition l :
  ∀ sc, length sc = length l → Forall (λ z, z = 1%Z ∨ z = (-1)%Z) sc →
        boolean_mask sc l ++ anomaly_mask sc l ≡ₚ l.
Proof.
  unfold boolean_mask, anomaly_mask.
  induction l as [|t l IH]; intros [|z sc] Hlen Hbin; try done.
  apply Forall_cons in Hbin as [Hz Hbin]. cbn [zip_with].
  specialize (IH sc ltac:(by injection Hlen) Hbin).
  destruct Hz as [-> | ->].
  - rewrite (filter_cons_True (λ p : Trade * Z, p.2 = 1%Z)) by done.
    rewrite (filter_cons_False (λ p : Trade * Z, p.2 = (-1)%Z)) by done.
    rewrite fmap_cons. cbn [fst app]. by rewrite IH.
  - rewrite (filter_cons_False (λ p : Trade * Z, p.2 = 1%Z)) by done.
    rewrite (filter_cons_True (λ p : Trade * Z, p.2 = (-1)%Z)) by done.
    rewrite fmap_cons. cbn [fst]. rewrite <- Permutation_middle. by rewrite IH.
Qed.

(** X11. With a model whose labels are 1 or -1, a successful scan splits
    the ledger in two: every trade is either kept for netting or listed in
    the alert of flagged trades, never both and never neither. *)
Theorem scan_partitions_ledger fit_predict w w' r r' :
  binary_labels fit_predict →
  detect_anomalies fit_predict r w = (Ok r', w') →
  ∃ frame sc, heap w' !! r' = Some frame ∧ Anomaly_Score frame = Some sc ∧
    boolean_mask sc (rows frame) ++ anomaly_mask sc (rows frame) ≡ₚ rows frame ∧
    (length (boolean_mask sc (rows frame)) + length (anomaly_mask sc (rows frame))
     = length (rows frame))%nat.
Proof.
  intros Hbin Hscan.
  apply detect_anomalies_Ok_inv in Hscan as (-> & df & labels & Hr & Hfit & Hlen & ->).
  exists {| rows := rows df; Anomaly_Score := Some labels |}, labels.
  cbn [heap rows Anomaly_Score]. split; [apply lookup_insert_eq|]. split; [done|].
  assert (boolean_mask labels (rows df) ++ anomaly_mask labels (rows df) ≡ₚ rows df)
    as Hperm by (apply mask_partition; [done|by eapply Hbin]).
  split; [done|]. by rewrite <- length_app, Hperm.
Qed.

Lemma scan_partitions_ledger_witness :
  ∃ frame sc,
    heap (detect_anomalies large_quantity_model 0%nat
            (world_of (5 # 100) ledger_mixed_unscanned)).2 !! 0%nat = Some frame ∧
    Anomaly_Score frame = Some sc ∧
    boolean_mask sc (rows frame) ++ anomaly_mask sc (rows frame) ≡ₚ rows frame ∧
    (length (boolean_mask sc (rows frame)) + length (anomaly_mask sc (rows frame))
     = length (rows frame))%nat.
Proof.
  apply (scan_partitions_ledger large_quantity_model
           (world_of (5 # 100) ledger_mixed_unscanned) _ 0%nat 0%nat).
  - intros c seed X labels. unfold large_quantity_model.
    destruct (contamination_accepted c); [|discriminate].
    intros [= <-]. apply Forall_fmap, Forall_forall. intros x _. cbn [compose].
    destruct (decide (500 < x.1)%Z); auto.
  - reflexivity.
Defined.

(** The scan of the witness keeps three trades and flags the fourth. *)
Example scan_of_ledger_mixed_unscanned :
  Anomaly_Score <$>
    heap (detect_anomalies large_quantity_model 0%nat
            (world_of (5 # 100) ledger_mixed_unscanned)).2 !! 0%nat
  = Some (Some [1; 1; 1; -1]%Z).
Proof. reflexivity. Qed.

(** ** The simulated ledger *)

Lemma generate_trades_lookup rng n i :
  rows (generate_trades rng n) !! i =
    if decide (i < n)%nat then
      Some (if decide (0 ≤ i ≤ 2)%nat
            then scale_Total_Value 50 (simulated_row rng i)
            else simulated_row rng i)
    else None.
Proof.
  unfold generate_trades, loc_scale_Total_Value. cbn [rows].
  rewrite list_lookup_imap, list_lookup_fmap.
  destruct (decide (i < n)%nat) as [Hlt|Hge].
  - by rewrite lookup_seq_lt.
  - rewrite lookup_seq_ge; [done|lia].
Qed.

Lemma generate_trades_length rng n : length (rows (generate_trades rng n)) = n.
Proof.
  unfold generate_trades, loc_scale_Total_Value. cbn [rows].
  by rewrite length_imap, length_fmap, length_seq.
Qed.

(** X12. The simulator returns an unscanned ledger of [n] trades in which
    the fat-finger error hits the first three rows and no other: their
    total is fifty times quantity times price, the total of every later
    row is quantity times price; row [i] is stamped [i] milliseconds
    after the start. *)
Theorem generate_trades_rows rng n i t :
  rows (generate_trades rng n) !! i = Some t →
  Anomaly_Score (generate_trades rng n) = None ∧
  length (rows (generate_trades rng n)) = n ∧ (i < n)%nat ∧
  Quantity t = draw_quantity (rng i) ∧ Price t = draw_price (rng i) ∧
  Timestamp t = Z.of_nat i ∧
  Total_Value t =
    (if decide (i ≤ 2)%nat then inject_Z (Quantity t) * Price t * 50
     else inject_Z (Quantity t) * Price t).
Proof.
  intros Hrow. split; [done|]. split; [apply generate_trades_length|].
  revert Hrow. rewrite generate_trades_lookup.
  destruct (decide (i < n)%nat); [|done]. intros Hrow. split; [done|].
  revert Hrow.
  destruct (decide (0 ≤ i ≤ 2)%nat) as [Hi|Hi]; intros [= <-].
  - rewrite decide_True by lia. by cbn.
  - rewrite decide_False by lia. by cbn.
Qed.

Lemma generate_trades_rows_witness :
  Anomaly_Score (generate_trades constant_rng 5) = None ∧
  length (rows (generate_trades constant_rng 5)) = 5%nat ∧ (1 < 5)%nat ∧
  Quantity (scale_Total_Value 50 (simulated_row constant_rng 1))
    = draw_quantity (constant_rng 1) ∧
  Price (scale_Total_Value 50 (simulated_row constant_rng 1))
    = draw_price (constant_rng 1) ∧
  Timestamp (scale_Total_Value 50 (simulated_row constant_rng 1)) = Z.of_nat 1 ∧
  Total_Value (scale_Total_Value 50 (simulated_row constant_rng 1)) =
    (if decide (1 ≤ 2)%nat
     then inject_Z (Quantity (scale_Total_Value 50 (simulated_row constant_rng 1)))
          * Price (scale_Total_Value 50 (simulated_row constant_rng 1)) * 50
     else inject_Z (Quantity (scale_Total_Value 50 (simulated_row constant_rng 1)))
          * Price (scale_Total_Value 50 (simulated_row constant_rng 1))).
Proof.
  apply (generate_trades_rows constant_rng 5 1
           (scale_Total_Value 50 (simulated_row constant_rng 1))).
  reflexivity.
Defined.

Lemma draw_in_range_value d :
  draw_in_range d → 1000 <= inject_Z (draw_quantity d) * draw_price d.
Proof.
  intros (_ & [Hq _] & Hp & _).
  assert (10 <= inject_Z (draw_quantity d)) as Hq'.
  { change 10 with (inject_Z 10). by rewrite <- Zle_Qle. }
  nra.
Qed.

(** X13. When the generator stays in its ranges (quantity from 10 to 999,
    price from 100 to 1500), every simulated trade is worth at least
    1000, so no total is zero or negative, and its buyer and seller are
    among the five counterparties. *)
Theorem generate_trades_values rng n :
  (∀ i, (i < n)%nat → draw_in_range (rng i)) →
  Forall (λ t, 1000 <= Total_Value t ∧
               Buyer t ∈ vec_to_list counterparties ∧
               Seller t ∈ vec_to_list counterparties)
    (rows (generate_trades rng n)).
Proof.
  intros Hrng. apply Forall_lookup. intros i t.
  rewrite generate_trades_lookup.
  destruct (decide (i < n)%nat) as [Hi|]; [|done].
  pose proof (draw_in_range_value _ (Hrng i Hi)) as Hv.
  assert (counterparties !!! draw_buyer (rng i) ∈ vec_to_list counterparties)
    by (apply elem_of_vlookup; eauto).
  assert (counterparties !!! draw_seller (rng i) ∈ vec_to_list counterparties)
    by (apply elem_of_vlookup; eauto).
  destruct (decide (0 ≤ i ≤ 2)%nat); intros [= <-]; cbn; split; try done.
  lra.
Qed.

Lemma generate_trades_values_witness :
  Forall (λ t, 1000 <= Total_Value t ∧
               Buyer t ∈ vec_to_list counterparties ∧
               Seller t ∈ vec_to_list counterparties)
    (rows (generate_trades constant_rng 5)).
Proof.
  apply (generate_trades_values constant_rng 5).
  intros i _. unfold draw_in_range, constant_rng. cbn.
  repeat split; try lia; by vm_compute.
Defined.

(** ** Runs of the dashboard script *)

Lemma Script_bind_unfold {A B} (m : Script A) (k : A → Script B) app :
  (m ≫= k) app =
    match m app with
    | (Ok a, app') => k a app'
    | (Raise e, app') => (Raise e, app')
    end.
Proof. reflexivity. Qed.

Lemma lift_unfold {A} (m : M A) app :
  lift m app = ((m (world app)).1,
                {| session := session app; world := (m (world app)).2 |}).
Proof. unfold lift. by destruct (m (world app)). Qed.

Lemma tab1_outcome df app frame :
  heap (world app) !! df = Some frame →
  tab1 df app =
    (Ok (length (rows frame), Qsum (Total_Value <$> rows frame) / 1000000), app).
Proof.
  intros Hframe. unfold tab1. rewrite Script_bind_unfold, lift_unfold.
  unfold deref. rewrite Hframe. by destruct app.
Qed.

Lemma tab2_outcome fit_predict clicked df app frame :
  heap (world app) !! df = Some frame →
  tab2 fit_predict clicked df app =
    if clicked then
      match fit_predict (risk_threshold (world app)) 42%Z (features frame) with
      | Ok labels =>
          if decide (length labels = length (rows frame)) then
            (Ok (Some (anomaly_mask labels (rows frame))),
             {| session := {| session_df := session_df (session app);
                              session_analyzed_df := Some df |};
                world := {| risk_threshold := risk_threshold (world app);
                            heap := <[df := {| rows := rows frame;
                                               Anomaly_Score := Some labels |}]>
                                      (heap (world app)) |} |})
          else
            (Raise (ValueError "Length of values does not match length of index"),
             app)
      | Raise e => (Raise e, app)
      end
    else (Ok None, app).
Proof.
  intros Hframe. unfold tab2. destruct clicked; [|done].
  rewrite Script_bind_unfold, lift_unfold.
  rewrite (detect_anomalies_outcome fit_predict (world app) df frame Hframe).
  destruct (fit_predict (risk_threshold (world app)) 42%Z (features frame))
    as [labels|e]; [|by destruct app].
  destruct (decide (length labels = length (rows frame))); [|by destruct app].
  cbn [fst snd]. rewrite Script_bind_unfold. cbn [set_analyzed_df session world].
  rewrite Script_bind_unfold, lift_unfold. unfold deref. cbn [world heap].
  rewrite lookup_insert_eq. cbn [fst snd].
  rewrite Script_bind_unfold, lift_unfold. by cbn.
Qed.

Lemma tab3_labelled app a frame sc :
  session_analyzed_df (session app) = Some a →
  heap (world app) !! a = Some frame → Anomaly_Score frame = Some sc →
  tab3 app = (Ok (Some (netting_report (normal_trades frame))), app).
Proof.
  intros Ha Hframe Hsc. unfold tab3. rewrite Script_bind_unfold.
  unfold get_analyzed_df. rewrite Ha. rewrite Script_bind_unfold, lift_unfold.
  rewrite (run_netting_labelled (world app) a frame sc Hframe Hsc).
  by destruct app.
Qed.

Lemma tab3_unscanned app :
  session_analyzed_df (session app) = None → tab3 app = (Ok None, app).
Proof.
  intros Ha. unfold tab3. rewrite Script_bind_unfold.
  unfold get_analyzed_df. by rewrite Ha.
Qed.

Lemma script_run_outcome fit_predict rng slider clicked app :
  session_ok app →
  ∃ df frame h1,
    h1 !! df = Some frame ∧
    (session_df (session app) = Some df ∧ h1 = heap (world app) ∨
     session_df (session app) = None ∧ session_analyzed_df (session app) = None ∧
     heap (world app) !! df = None ∧ frame = generate_trades rng 1000 ∧
     h1 = <[df := frame]> (heap (world app))) ∧
    let app1 := {| session := {| session_df := Some df;
                                 session_analyzed_df :=
                                   session_analyzed_df (session app) |};
                   world := {| risk_threshold := slider; heap := h1 |} |} in
    script_run fit_predict rng slider clicked app =
      if clicked then
        match fit_predict slider 42%Z (features frame) with
        | Ok labels =>
            if decide (length labels = length (rows frame)) then
              (Ok {| transactions_processed := length (rows frame);
                     total_market_volume :=
                       Qsum (Total_Value <$> rows frame) / 1000000;
                     alert := Some (anomaly_mask labels (rows frame));
                     settlement :=
                       Some (netting_report (boolean_mask labels (rows frame))) |},
               {| session := {| session_df := Some df;
                                session_analyzed_df := Some df |};
                  world := {| risk_threshold := slider;
                              heap := <[df := {| rows := rows frame;
                                                 Anomaly_Score := Some labels |}]> h1 |} |})
            else
              (Raise (ValueError "Length of values does not match length of index"),
               app1)
        | Raise e => (Raise e, app1)
        end
      else
        (Ok {| transactions_processed := length (rows frame);
               total_market_volume := Qsum (Total_Value <$> rows frame) / 1000000;
               alert := None;
               settlement :=
                 match session_analyzed_df (session app) with
                 | Some _ => Some (netting_report (normal_trades frame))
                 | None => None
                 end |},
         app1).
Proof.
  intros [Hdf Han].
  assert (∃ df frame h1 app1,
    init_df rng (read_slider slider app).2 = (Ok df, app1) ∧
    app1 = {| session := {| session_df := Some df;
                            session_analyzed_df := session_analyzed_df (session app) |};
              world := {| risk_threshold := slider; heap := h1 |} |} ∧
    h1 !! df = Some frame ∧
    (session_df (session app) = Some df ∧ h1 = heap (world app) ∨
     session_df (session app) = None ∧ session_analyzed_df (session app) = None ∧
     heap (world app) !! df = None ∧ frame = generate_trades rng 1000 ∧
     h1 = <[df := frame]> (heap (world app)))) as (df & frame & h1 & app1 & Hinit & Happ1 & Hh1 & Hcase).
  { unfold init_df, read_slider. cbn [snd session world heap risk_threshold].
    destruct app as [[sdf san] [rt h]]. cbn [session world heap risk_threshold session_df session_analyzed_df] in *.
    destruct sdf as [df|].
    - destruct (Hdf df eq_refl) as [frame Hframe].
      exists df, frame, h. eexists. split; [reflexivity|]. split; [done|]. split; [done|]. by left.
    - set (df := fresh (dom h)).
      assert (h !! df = None) as Hfresh.
      { apply not_elem_of_dom. apply is_fresh. }
      exists df, (generate_trades rng 1000), (<[df := generate_trades rng 1000]> h).
      eexists. split; [reflexivity|]. split; [done|].
      split; [apply lookup_insert_eq|]. right. repeat split; try done.
      destruct san as [a|]; [|done]. by destruct (Han a eq_refl). }
  exists df, frame, h1. split; [done|]. split; [done|].
  cbn zeta. rewrite <- Happ1.
  assert (heap (world app1) !! df = Some frame) as Hframe1 by (by rewrite Happ1).
  unfold script_run. rewrite Script_bind_unfold.
  change (read_slider slider app) with (Ok tt, (read_slider slider app).2).
  cbn match. rewrite Script_bind_unfold, Hinit.
  rewrite Script_bind_unfold, (tab1_outcome df app1 frame Hframe1).
  rewrite Script_bind_unfold, (tab2_outcome fit_predict clicked df app1 frame Hframe1).
  assert (risk_threshold (world app1) = slider) as -> by (by rewrite Happ1).
  destruct clicked.
  - destruct (fit_predict slider 42%Z (features frame)) as [labels|e]; [|done].
    destruct (decide (length labels = length (rows frame))) as [Hlen|]; [|done].
    rewrite Script_bind_unfold.
    rewrite (tab3_labelled _ df {| rows := rows frame; Anomaly_Score := Some labels |} labels);
      [| done | cbn; apply lookup_insert_eq | done].
    rewrite Happ1. reflexivity.
  - rewrite Script_bind_unfold.
    destruct (session_analyzed_df (session app)) as [a|] eqn:Ha.
    + destruct (Han a eq_refl) as (Hsdf & frame' & sc & Hfr & Hsc & _).
      destruct Hcase as [[Hsome ->]|[Hnone _]]; [|congruence].
      assert (a = df) as -> by congruence.
      assert (frame' = frame) as -> by congruence.
      rewrite (tab3_labelled app1 df frame sc); [done| by rewrite Happ1 | done | done].
    + rewrite (tab3_unscanned app1); [done|by rewrite Happ1].
Qed.

Lemma fresh_app_ok : session_ok fresh_app.
Proof. split; intros r Hr; discriminate Hr. Qed.

(** X15. The session stays consistent from run to run: whatever the
    slider, the button and the model do, and whether or not the run ends in
    an exception, after the run the session has its ledger, and a ledger
    kept as scanned is that same ledger with one score per trade, so that
    the third tab never nets an unscanned ledger. *)
Theorem script_run_keeps_session_ok fit_predict rng slider clicked app :
  session_ok app →
  session_ok (script_run fit_predict rng slider clicked app).2.
Proof.
  intros Hok.
  destruct (script_run_outcome fit_predict rng slider clicked app Hok)
    as (df & frame & h1 & Hframe & Hcase & Hrun).
  cbn zeta in Hrun. rewrite Hrun. destruct Hok as [Hdf Han].
  assert (session_ok
            {| session := {| session_df := Some df;
                             session_analyzed_df := session_analyzed_df (session app) |};
               world := {| risk_threshold := slider; heap := h1 |} |}) as Hok1.
  { split; cbn.
    - intros df' [= <-]. by eexists.
    - intros a Ha. destruct (Han a Ha) as (Hsdf & frame' & sc & Hfr & Hsc & Hlen).
      destruct Hcase as [[Hsome ->]|[Hnone _]]; [|congruence].
      split; [congruence|]. by exists frame', sc. }
  destruct clicked; [|done].
  destruct (fit_predict slider 42%Z (features frame)) as [labels|e]; [|done].
  destruct (decide (length labels = length (rows frame))) as [Hlen|]; [|done].
  split; cbn.
  - intros df' [= <-]. rewrite lookup_insert_eq. by eexists.
  - intros a [= <-]. split; [done|]. eexists _, labels.
    rewrite lookup_insert_eq. by repeat split.
Qed.

Lemma script_run_keeps_session_ok_witness :
  session_ok (script_run all_normal_model constant_rng (5 # 100) true started_app).2.
Proof.
  apply (script_run_keeps_session_ok all_normal_model constant_rng (5 # 100)
           true started_app).
  split; intros r Hr; [|discriminate Hr].
  injection Hr as <-. by eexists.
Defined.

(** X16. A run of the script raises no exception unless the scan does:
    a run without a click always completes, and a run with a click
    completes whenever the model returns one label per trade for the
    session's ledger at the slider's value.  The netting of the third tab
    never makes a run fail. *)
Theorem script_run_fails_only_in_scan fit_predict rng slider clicked app :
  session_ok app →
  (clicked = true → ∀ frame, session_ledger rng app frame →
     ∃ labels, fit_predict slider 42%Z (features frame) = Ok labels ∧
               length labels = length (rows frame)) →
  ∃ dash, (script_run fit_predict rng slider clicked app).1 = Ok dash.
Proof.
  intros Hok Hscan.
  destruct (script_run_outcome fit_predict rng slider clicked app Hok)
    as (df & frame & h1 & Hframe & Hcase & Hrun).
  cbn zeta in Hrun. rewrite Hrun. destruct clicked; [|by eexists].
  assert (session_ledger rng app frame) as Hledger.
  { unfold session_ledger.
    destruct Hcase as [[-> ->]|(-> & _ & _ & -> & _)]; done. }
  destruct (Hscan eq_refl frame Hledger) as (labels & -> & Hlen).
  rewrite decide_True by done. by eexists.
Qed.

Lemma script_run_fails_only_in_scan_witness :
  ∃ dash, (script_run all_normal_model constant_rng (5 # 100) true started_app).1
            = Ok dash.
Proof.
  apply (script_run_fails_only_in_scan all_normal_model constant_rng (5 # 100)
           true started_app).
  - split; intros r Hr; [|discriminate Hr].
    injection Hr as <-. by eexists.
  - intros _ frame Hframe. vm_compute in Hframe. injection Hframe as <-.
    eexists. split; reflexivity.
Defined.

(** X17. Moving the slider without clicking the button changes nothing
    that is shown: a run without a click never raises and shows, for every
    slider value, the same dashboard, with no alert, the number of trades
    of the session's ledger, and as settlement the report that
    [run_netting] gives for the ledger kept from the last scan (none
    before the first scan). *)
Theorem slider_alone_changes_nothing fit_predict rng app :
  session_ok app →
  ∃ dash, alert dash = None ∧
    (∀ slider, (script_run fit_predict rng slider false app).1 = Ok dash) ∧
    (∀ frame, session_ledger rng app frame →
       transactions_processed dash = length (rows frame)) ∧
    match session_analyzed_df (session app) with
    | Some analyzed_df =>
        ∃ rep, run_netting analyzed_df (world app) = (Ok rep, world app) ∧
               settlement dash = Some rep
    | None => settlement dash = None
    end.
Proof.
  intros Hok.
  destruct (script_run_outcome fit_predict rng 0 false app Hok)
    as (df & frame & h1 & Hframe & Hcase & Hrun).
  cbn zeta in Hrun.
  assert (∀ frame', session_ledger rng app frame' → frame' = frame) as Hled.
  { intros frame'. unfold session_ledger.
    destruct Hcase as [[-> ->]|(-> & _ & _ & -> & _)]; [congruence|done]. }
  eexists. split; [|split; [intros slider|split]].
  2:{ destruct (script_run_outcome fit_predict rng slider false app Hok)
        as (df' & frame' & h1' & Hframe' & Hcase' & Hrun').
      cbn zeta in Hrun'. rewrite Hrun'. cbn [fst].
      assert (frame' = frame) as ->; [|reflexivity].
      apply Hled. unfold session_ledger.
      destruct Hcase' as [[-> ->]|(-> & _ & _ & -> & _)]; done. }
  - done.
  - intros frame' ->%Hled. done.
  - cbn [settlement]. destruct Hok as [_ Han].
    destruct (session_analyzed_df (session app)) as [a|]; [|done].
    destruct (Han a eq_refl) as (Hsdf & frame' & sc & Hfr & Hsc & _).
    assert (frame' = frame) as ->.
    { apply Hled. unfold session_ledger. by rewrite Hsdf. }
    eexists. split; [by eapply run_netting_labelled|done].
Qed.

Lemma slider_alone_changes_nothing_witness :
  ∃ dash, alert dash = None ∧
    (∀ slider, (script_run all_normal_model constant_rng slider false scanned_app).1
                 = Ok dash) ∧
    (∀ frame, session_ledger constant_rng scanned_app frame →
       transactions_processed dash = length (rows frame)) ∧
    ∃ rep, run_netting 0%nat (world scanned_app) = (Ok rep, world scanned_app) ∧
           settlement dash = Some rep.
Proof.
  apply (slider_alone_changes_nothing all_normal_model constant_rng scanned_app).
  split; intros r Hr; injection Hr as <-.
  - by eexists.
  - split; [done|]. exists ledger_mixed, [1; 1; 1; -1]%Z. by repeat split.
Defined.

(** X18. The ledger is simulated once and its trades are never changed:
    after a run the session has a ledger; if the session had one before,
    it is the same ledger with the same trades, whatever the scan did to
    its scores, and otherwise it is a fresh ledger of 1000 simulated
    trades. *)
Theorem ledger_generated_once fit_predict rng slider clicked app :
  session_ok app →
  ∃ df frame',
    session_df (session (script_run fit_predict rng slider clicked app).2) = Some df ∧
    heap (world (script_run fit_predict rng slider clicked app).2) !! df = Some frame' ∧
    match session_df (session app) with
    | Some df0 =>
        df = df0 ∧
        ∃ frame0, heap (world app) !! df0 = Some frame0 ∧ rows frame' = rows frame0
    | None =>
        heap (world app) !! df = None ∧
        rows frame' = rows (generate_trades rng 1000) ∧
        length (rows frame') = 1000%nat
    end.
Proof.
  intros Hok.
  destruct (script_run_outcome fit_predict rng slider clicked app Hok)
    as (df & frame & h1 & Hframe & Hcase & Hrun).
  cbn zeta in Hrun. rewrite Hrun.
  assert (match session_df (session app) with
          | Some df0 =>
              df = df0 ∧
              ∃ frame0, heap (world app) !! df0 = Some frame0 ∧ rows frame = rows frame0
          | None =>
              heap (world app) !! df = None ∧
              rows frame = rows (generate_trades rng 1000) ∧
              length (rows frame) = 1000%nat
          end) as Hrows.
  { destruct Hcase as [[-> ->]|(-> & _ & Hnone & -> & _)].
    - split; [done|]. by exists frame.
    - split; [done|]. split; [done|]. apply generate_trades_length. }
  destruct clicked.
  - destruct (fit_predict slider 42%Z (features frame)) as [labels|e].
    + destruct (decide (length labels = length (rows frame))).
      * exists df. eexists. cbn [fst snd session world heap session_df].
        split; [reflexivity|]. split; [apply lookup_insert_eq|]. exact Hrows.
      * exists df, frame. cbn [fst snd session world heap session_df].
        split; [reflexivity|]. split; [exact Hframe|exact Hrows].
    + exists df, frame. cbn [fst snd session world heap session_df].
      split; [reflexivity|]. split; [exact Hframe|exact Hrows].
  - exists df, frame. cbn [fst snd session world heap session_df].
    split; [reflexivity|]. split; [exact Hframe|exact Hrows].
Qed.

Lemma ledger_generated_once_witness :
  ∃ df frame',
    session_df (session (script_run all_normal_model constant_rng (5 # 100) true
                           started_app).2) = Some df ∧
    heap (world (script_run all_normal_model constant_rng (5 # 100) true
                   started_app).2) !! df = Some frame' ∧
    df = 0%nat ∧
    ∃ frame0, heap (world started_app) !! 0%nat = Some frame0 ∧
              rows frame' = rows frame0.
Proof.
  apply (ledger_generated_once all_normal_model constant_rng (5 # 100) true
           started_app).
  split; intros r Hr; [|discriminate Hr].
  injection Hr as <-. by eexists.
Defined.

(** X19. After a click that succeeds, the alert and the settlement come
    from the same scan: the model's labels for the session's ledger at the
    slider's current value.  The alert lists the trades labelled -1, the
    settlement is the report of the trades labelled 1, and the scanned
    ledger kept in the session is the session's ledger itself. *)
Theorem clicked_run_shows_scan fit_predict rng slider app dash :
  session_ok app →
  (script_run fit_predict rng slider true app).1 = Ok dash →
  ∃ df frame labels,
    session_df (session (script_run fit_predict rng slider true app).2) = Some df ∧
    session_analyzed_df
      (session (script_run fit_predict rng slider true app).2) = Some df ∧
    heap (world (script_run fit_predict rng slider true app).2) !! df = Some frame ∧
    Anomaly_Score frame = Some labels ∧
    fit_predict slider 42%Z (features frame) = Ok labels ∧
    transactions_processed dash = length (rows frame) ∧
    alert dash = Some (anomaly_mask labels (rows frame)) ∧
    settlement dash = Some (netting_report (boolean_mask labels (rows frame))).
Proof.
  intros Hok.
  destruct (script_run_outcome fit_predict rng slider true app Hok)
    as (df & frame & h1 & Hframe & _ & Hrun).
  cbn zeta in Hrun. rewrite Hrun.
  destruct (fit_predict slider 42%Z (features frame)) as [labels|e] eqn:Hfit; [|done].
  destruct (decide (length labels = length (rows frame))); [|done].
  intros [= <-].
  exists df, {| rows := rows frame; Anomaly_Score := Some labels |}, labels.
  cbn. rewrite lookup_insert_eq. by repeat split.
Qed.

Lemma clicked_run_shows_scan_witness :
  ∃ df frame labels,
    session_df (session (script_run all_normal_model constant_rng (5 # 100) true
                           started_app).2) = Some df ∧
    session_analyzed_df
      (session (script_run all_normal_model constant_rng (5 # 100) true
                  started_app).2) = Some df ∧
    heap (world (script_run all_normal_model constant_rng (5 # 100) true
                   started_app).2) !! df = Some frame ∧
    Anomaly_Score frame = Some labels ∧
    all_normal_model (5 # 100) 42%Z (features frame) = Ok labels ∧
    transactions_processed first_click_dashboard = length (rows frame) ∧
    alert first_click_dashboard = Some (anomaly_mask labels (rows frame)) ∧
    settlement first_click_dashboard =
      Some (netting_report (boolean_mask labels (rows frame))).
Proof.
  apply (clicked_run_shows_scan all_normal_model constant_rng (5 # 100)
           started_app first_click_dashboard).
  - split; intros r Hr; [|discriminate Hr].
    injection Hr as <-. by eexists.
  - reflexivity.
Defined.

(** ** The engine over binary64: the shape of the table *)




(** ** Comparing binary64 numbers *)

Section comparison.
Local Open Scope Z_scope.













End comparison.






Section f64_table.
Variable group_total : list float → float.
Implicit Types (l : list F64.Trade) (e k : string).



End f64_table.

(** ** Conservation over binary64 *)

Section f64_conservation.
Variables series_sum group_total : list float → float.
Implicit Types (l : list F64.Trade).




End f64_conservation.




(** ** The net volume over binary64 *)







(** ** A trade of an entity with itself, over binary64 *)






